(** * A decorator-based dependency-injection container

    Shallow embedding of [src/dependencyInjection/index.ts]: the [Container]
    class, the [Injectable] class decorator, the [Inject] property decorator
    and the demo services wired through them. *)

From Stdlib Require Import ZArith.
From stdpp Require Import gmap strings pretty list fin_maps.

Local Open Scope string_scope.

(** ** JavaScript values *)

(** Objects live in a heap and are denoted by their address, so equality of
    two [VObj] values is reference equality. Numbers are restricted to the
    integers and [NaN]. *)
Inductive JsValue :=
| VUndefined
| VNull
| VBool (b : bool)
| VNum (n : Z)
| VNaN
| VStr (s : string)
| VObj (l : nat).

#[global] Instance JsValue_eq_dec : EqDecision JsValue.
Proof. solve_decision. Defined.

(** The abstract operation ToBoolean, which [!service] negates. *)
Definition ToBoolean (v : JsValue) : bool :=
  match v with
  | VUndefined | VNull | VNaN => false
  | VBool b => b
  | VNum n => negb (Z.eqb n 0)
  | VStr s => negb (String.eqb s "")
  | VObj _ => true
  end.

(** Whether a value is an object, as opposed to a primitive. *)
Definition is_object (v : JsValue) : bool :=
  match v with
  | VObj _ => true
  | _ => false
  end.

(** Strict equality [===], which [switch] uses to select a [case]: objects
    by reference, [NaN] unequal to itself. *)
Definition strict_equals (a b : JsValue) : bool :=
  match a, b with
  | VUndefined, VUndefined | VNull, VNull => true
  | VBool x, VBool y => Bool.eqb x y
  | VNum x, VNum y => Z.eqb x y
  | VStr x, VStr y => String.eqb x y
  | VObj x, VObj y => Nat.eqb x y
  | _, _ => false
  end.

(** Thrown values. The source only ever throws [new Error(message)]; the
    runtime itself raises [TypeError] on a read through [undefined] or a write
    to a getter-only property. *)
Inductive JsError :=
| Error (message : string)
| TypeError (message : string).

#[global] Instance JsError_eq_dec : EqDecision JsError.
Proof. solve_decision. Defined.

(** ** Computations that may throw, over a mutable state *)

Inductive Outcome (A : Type) :=
| Ok (a : A)
| Throw (e : JsError).
Arguments Ok {A} a.
Arguments Throw {A} e.

Definition M (S A : Type) : Type := S -> Outcome A * S.

Definition ret {S A} (a : A) : M S A := fun s => (Ok a, s).

Definition throw {S A} (e : JsError) : M S A := fun s => (Throw e, s).

Definition bind {S A B} (m : M S A) (k : A -> M S B) : M S B :=
  fun s =>
    match m s with
    | (Ok a, s') => k a s'
    | (Throw e, s') => (Throw e, s')
    end.

Definition gets {S A} (f : S -> A) : M S A := fun s => (Ok (f s), s).

(** A statement executed for its effect evaluates to [undefined]. *)
Definition modify {S} (f : S -> S) : M S JsValue := fun s => (Ok VUndefined, f s).

(** [n] successive runs of [m], collecting the results. *)
Fixpoint times {S A} (n : nat) (m : M S A) : M S (list A) :=
  match n with
  | O => ret []
  | S n' => bind m (fun a => bind (times n' m) (fun rest => ret (a :: rest)))
  end.

Declare Scope js_scope.
Delimit Scope js_scope with js.
Notation "x <- m ;; k" := (bind m (fun x => k))
  (at level 100, m at next level, right associativity) : js_scope.
Notation "m ;; k" := (bind m (fun _ => k))
  (at level 100, right associativity) : js_scope.
Local Open Scope js_scope.

(** A class identity is the constructor function itself, compared by
    reference: it is modelled by the address of that function object. *)
Definition Token := positive.

(** ** The container *)

(** [class Container { private services = new Map(); ... }] *)
Record Container := { services : gmap Token JsValue }.

(** [new Container()] *)
Definition new_Container : Container := {| services := ∅ |}.

(** [Map.prototype.get]: the stored value, [undefined] for an absent key. *)
Definition Map_get (m : gmap Token JsValue) (key : Token) : JsValue :=
  default VUndefined (m !! key).

(** [Map.prototype.set] *)
Definition Map_set (m : gmap Token JsValue) (key : Token) (value : JsValue)
  : gmap Token JsValue :=
  <[key := value]> m.

Section ContainerMethods.

(** The text a constructor function turns into inside a template literal
    ([`${token}`], that is [Function.prototype.toString]). *)
Variable tokenText : Token -> string.

(** [register(token, instance) { this.services.set(token, instance); }] *)
Definition register (token : Token) (instance : JsValue) : M Container JsValue :=
  modify (fun this => {| services := Map_set (services this) token instance |}).

(** [resolve(token)] *)
Definition resolve (token : Token) : M Container JsValue :=
  service <- gets (fun this => Map_get (services this) token) ;;
  if negb (ToBoolean service)
  then throw (Error ("Service not found for token: " ++ tokenText token))
  else ret service.

End ContainerMethods.

(** ** The module's state *)

(** An ordinary object: the class whose prototype it inherits from and its
    own data properties. A field declared without initializer, such as
    [private configService!: ConfigService], creates no own property. *)
Record Obj := { obj_class : Token; obj_fields : gmap string JsValue }.

(** The descriptor [Inject] passes to [Object.defineProperty]. The getter is
    the arrow function [() => serviceInstance]; it is represented by the
    value it closes over. *)
Record PropertyDescriptor :=
  { get : JsValue; enumerable : bool; configurable : bool }.

(** History of the operations performed on the container and of the
    constructions, kept for counting only: no definition reads it. *)
Inductive Call :=
| CResolve (token : Token)
| CRegister (token : Token) (instance : JsValue)
| CNew (token : Token).

#[global] Instance Call_eq_dec : EqDecision Call.
Proof. solve_decision. Defined.

Record World := {
  container : Container;
    (* [const container = new Container()] *)
  heap : list Obj;
    (* the objects created by [new], by address *)
  protos : gmap (Token * string) PropertyDescriptor;
    (* accessor properties defined on [C.prototype], by class and key *)
  out : list string;
    (* the lines written by [console.log], oldest first *)
  calls : list Call
}.

Definition initial_world : World :=
  {| container := new_Container; heap := []; protos := ∅; out := []; calls := [] |}.

Definition set_container (c : Container) (w : World) : World :=
  {| container := c; heap := heap w; protos := protos w; out := out w; calls := calls w |}.

Definition set_heap (h : list Obj) (w : World) : World :=
  {| container := container w; heap := h; protos := protos w; out := out w; calls := calls w |}.

Definition set_protos (p : gmap (Token * string) PropertyDescriptor) (w : World) : World :=
  {| container := container w; heap := heap w; protos := p; out := out w; calls := calls w |}.

Definition set_out (o : list string) (w : World) : World :=
  {| container := container w; heap := heap w; protos := protos w; out := o; calls := calls w |}.

Definition record_call (c : Call) (w : World) : World :=
  {| container := container w; heap := heap w; protos := protos w; out := out w;
     calls := calls w ++ [c] |}.

(** Runs a method of the module-level [container] object. *)
Definition on_container {A} (m : M Container A) : M World A :=
  fun w =>
    match m (container w) with
    | (r, c) => (r, set_container c w)
    end.

(** [console.log(line)] *)
Definition console_log (line : string) : M World JsValue :=
  modify (fun w => set_out (out w ++ [line]) w).

(** [console.clear()]: it writes no line. On a terminal it wipes what is
    displayed, which [out], the lines written, does not record. *)
Definition console_clear : M World JsValue :=
  ret VUndefined.

(** ** Objects, properties and construction *)

(** [receiver[key]]: an own data property first, then the accessor the
    prototype holds for that key (whose getter is called), else [undefined].
    Reading through [undefined] or [null] raises a [TypeError]. *)
Definition get_prop (receiver : JsValue) (key : string) : M World JsValue :=
  fun w =>
    match receiver with
    | VObj l =>
        match heap w !! l with
        | Some o =>
            match obj_fields o !! key with
            | Some v => (Ok v, w)
            | None =>
                match protos w !! (obj_class o, key) with
                | Some d => (Ok (get d), w)
                | None => (Ok VUndefined, w)
                end
            end
        | None => (Ok VUndefined, w)
        end
    | VUndefined =>
        (Throw (TypeError ("Cannot read properties of undefined (reading '" ++ key ++ "')")), w)
    | VNull =>
        (Throw (TypeError ("Cannot read properties of null (reading '" ++ key ++ "')")), w)
    | _ => (Ok VUndefined, w)
    end.

(** [this[key] = value] inside a class body, hence in strict mode: an own
    property is updated; otherwise a getter-only accessor on the prototype
    makes the assignment throw, and without one the own property is created. *)
Definition set_prop (this : nat) (key : string) (value : JsValue) : M World JsValue :=
  fun w =>
    match heap w !! this with
    | Some o =>
        let o' := {| obj_class := obj_class o;
                     obj_fields := <[key := value]> (obj_fields o) |} in
        match obj_fields o !! key, protos w !! (obj_class o, key) with
        | None, Some _ =>
            (Throw (TypeError ("Cannot set property " ++ key ++ " which has only a getter")), w)
        | _, _ => (Ok value, set_heap (<[this := o']> (heap w)) w)
        end
    | None => (Ok value, w)
    end.

(** A class: its identity and the body of its constructor, which receives
    the object under construction as [this]. *)
Record JsClass := {
  cls_id : Token;
  cls_constructor : nat -> M World JsValue
}.

(** The allocation step of [new C]: a fresh object inheriting from
    [C.prototype], with no own property. *)
Definition allocate (C : Token) : M World nat :=
  fun w =>
    (Ok (length (heap w)),
     record_call (CNew C)
       (set_heap (heap w ++ [{| obj_class := C; obj_fields := ∅ |}]) w)).

(** What [new C] yields when the constructor body, run on the object
    allocated at [this], returns [returned]: that value when it is an object,
    the allocated object otherwise. *)
Definition new_result (this : nat) (returned : JsValue) : JsValue :=
  match returned with
  | VObj _ => returned
  | _ => VObj this
  end.

(** [new C]: allocate, run the constructor body, yield the result. *)
Definition new_ (C : JsClass) : M World JsValue :=
  this <- allocate (cls_id C) ;;
  returned <- cls_constructor C this ;;
  ret (new_result this returned).

(** [Object.defineProperty(C.prototype, key, descriptor)]: refused with a
    [TypeError] when the key already holds a non-configurable property. *)
Definition Object_defineProperty
  (target : Token) (key : string) (descriptor : PropertyDescriptor) : M World unit :=
  fun w =>
    match protos w !! (target, key) with
    | Some d =>
        if configurable d
        then (Ok tt, set_protos (<[(target, key) := descriptor]> (protos w)) w)
        else (Throw (TypeError ("Cannot redefine property: " ++ key)), w)
    | None => (Ok tt, set_protos (<[(target, key) := descriptor]> (protos w)) w)
    end.

(** ** The decorators *)

Section Decorators.

Variable tokenText : Token -> string.

(** [container.register(token, instance)] *)
Definition container_register (token : Token) (instance : JsValue) : M World JsValue :=
  fun w => on_container (register token instance) (record_call (CRegister token instance) w).

(** [container.resolve(token)] *)
Definition container_resolve (token : Token) : M World JsValue :=
  fun w => on_container (resolve tokenText token) (record_call (CResolve token) w).

(** [function Injectable(BaseClassEntity)]: the argument [new BaseClassEntity]
    is evaluated before [register] is entered. *)
Definition Injectable (BaseClassEntity : JsClass) : M World JsValue :=
  instance <- new_ BaseClassEntity ;;
  container_register (cls_id BaseClassEntity) instance.

(** [Inject(token)(target, propertyKey)], where [target] is the prototype of
    the class whose body declares the decorated property. *)
Definition Inject (token : Token) (target : Token) (propertyKey : string) : M World JsValue :=
  serviceInstance <- container_resolve token ;;
  Object_defineProperty target propertyKey
    {| get := serviceInstance; enumerable := true; configurable := true |} ;;
  ret VUndefined.

End Decorators.

(** ** The demo services *)

(** The class identities, in declaration order. *)
Definition ConfigService : Token := 1%positive.
Definition ConsoleLoggerService : Token := 2%positive.
Definition FileLoggerService : Token := 3%positive.
Definition CloudLoggerService : Token := 4%positive.
Definition LoggerFactory : Token := 5%positive.
Definition UserService : Token := 6%positive.
Definition Main : Token := 7%positive.

(** The lookup of [receiver.method] for a call [receiver.method(...)]. The
    method of the receiver's class is reached, and that class is the result,
    when neither an own property of the receiver nor an accessor defined on
    the prototype sits under the method's name. What such a property or
    accessor holds is a value of the model, none of which is callable, so the
    call raises a [TypeError], as it does on a receiver that is not an
    object. *)
Definition lookup_method (receiver : JsValue) (method : string) : M World Token :=
  fun w =>
    match receiver with
    | VObj l =>
        match heap w !! l with
        | Some o =>
            match obj_fields o !! method, protos w !! (obj_class o, method) with
            | None, None => (Ok (obj_class o), w)
            | _, _ => (Throw (TypeError (method ++ " is not a function")), w)
            end
        | None => (Throw (TypeError (method ++ " is not a function")), w)
        end
    | VUndefined =>
        (Throw (TypeError ("Cannot read properties of undefined (reading '" ++ method ++ "')")), w)
    | VNull =>
        (Throw (TypeError ("Cannot read properties of null (reading '" ++ method ++ "')")), w)
    | _ => (Throw (TypeError (method ++ " is not a function")), w)
    end.

(** The method call [receiver.method(...)]: the body the receiver's class
    gives to [method], run with [this] bound to the receiver. No class of
    the module extends another; a class without a body for [method] has no
    such method. *)
Definition invoke (receiver : JsValue) (method : string)
  (bodies : list (Token * (JsValue -> M World JsValue))) : M World JsValue :=
  c <- lookup_method receiver method ;;
  match list_find (fun cb => bool_decide (cb.1 = c)) bodies with
  | Some (_, (_, body)) => body receiver
  | None => throw (TypeError (method ++ " is not a function"))
  end.

(** A class body without a [constructor]. *)
Definition default_constructor (this : nat) : M World JsValue := ret VUndefined.

Section Demo.

Variable tokenText : Token -> string.

(** The string [ConfigService.getEnvConfig] returns: ['console'] in the
    source. *)
Variable envConfig : string.

(** [class ConfigService] *)
Definition ConfigService_getEnvConfig (configName : string) (this : JsValue)
  : M World JsValue :=
  ret (VStr envConfig).

Definition ConfigService_getDbConfig (configName : string) (this : JsValue)
  : M World JsValue :=
  ret (VStr "console").

Definition class_ConfigService : JsClass :=
  {| cls_id := ConfigService; cls_constructor := default_constructor |}.

(** [class ConsoleLoggerService implements ILogger] *)
Definition ConsoleLoggerService_log (message : string) (this : JsValue)
  : M World JsValue :=
  console_log ("[console]: " ++ message).

Definition class_ConsoleLoggerService : JsClass :=
  {| cls_id := ConsoleLoggerService; cls_constructor := default_constructor |}.

(** [function getLoggerType()] *)
Definition getLoggerType : M World JsValue := ret (VStr "console").

(** [class FileLoggerService implements ILogger] *)
Definition FileLoggerService_log (message : string) (this : JsValue)
  : M World JsValue :=
  console_log ("[file]: " ++ message).

Definition class_FileLoggerService : JsClass :=
  {| cls_id := FileLoggerService; cls_constructor := default_constructor |}.

(** [class CloudLoggerService implements ILogger] *)
Definition CloudLoggerService_log (message : string) (this : JsValue)
  : M World JsValue :=
  console_log ("[cloud]: " ++ message).

Definition class_CloudLoggerService : JsClass :=
  {| cls_id := CloudLoggerService; cls_constructor := default_constructor |}.

(** [logger.log(message)] on a value of interface type [ILogger]. *)
Definition ILogger_log (logger : JsValue) (message : string) : M World JsValue :=
  invoke logger "log"
    [ (ConsoleLoggerService, ConsoleLoggerService_log message);
      (FileLoggerService, FileLoggerService_log message);
      (CloudLoggerService, CloudLoggerService_log message) ].

(** [class LoggerFactory] *)
Definition LoggerFactory_getLogger (this : JsValue) : M World JsValue :=
  configService <- get_prop this "configService" ;;
  config <- invoke configService "getEnvConfig"
              [ (ConfigService, ConfigService_getEnvConfig "loggerConfig") ] ;;
  if strict_equals config (VStr "console") then get_prop this "consoleLogger"
  else if strict_equals config (VStr "file") then get_prop this "fileLogger"
  else if strict_equals config (VStr "cloud") then get_prop this "cloudLogger"
  else throw (Error "unknown logger service instance").

Definition class_LoggerFactory : JsClass :=
  {| cls_id := LoggerFactory; cls_constructor := default_constructor |}.

(** [class UserService] *)
Definition UserService_constructor (this : nat) : M World JsValue :=
  loggerFactory <- get_prop (VObj this) "loggerFactory" ;;
  logger <- invoke loggerFactory "getLogger" [ (LoggerFactory, LoggerFactory_getLogger) ] ;;
  set_prop this "loggerService" logger ;;
  ret VUndefined.

Definition UserService_login (username password : string) (this : JsValue)
  : M World JsValue :=
  loggerService <- get_prop this "loggerService" ;;
  ILogger_log loggerService
    ("logging in user with " ++ username ++ " and " ++ password).

Definition UserService_updateUserName (newUsername : string) (this : JsValue)
  : M World JsValue :=
  loggerService <- get_prop this "loggerService" ;;
  ILogger_log loggerService ("updating username " ++ newUsername).

Definition UserService_logOut (this : JsValue) : M World JsValue :=
  loggerService <- get_prop this "loggerService" ;;
  ILogger_log loggerService "logging out user".

Definition class_UserService : JsClass :=
  {| cls_id := UserService; cls_constructor := UserService_constructor |}.

(** [class Main] *)
Definition Main_init (this : JsValue) : M World JsValue :=
  userService <- get_prop this "userService" ;;
  invoke userService "login" [ (UserService, UserService_login "john" "john@123") ] ;;
  userService <- get_prop this "userService" ;;
  invoke userService "updateUserName" [ (UserService, UserService_updateUserName "bob") ] ;;
  userService <- get_prop this "userService" ;;
  invoke userService "logOut" [ (UserService, UserService_logOut) ] ;;
  ret VUndefined.

Definition class_Main : JsClass :=
  {| cls_id := Main; cls_constructor := default_constructor |}.

(** The declarations up to and including [LoggerFactory]. *)
Definition declarations_through_LoggerFactory : M World JsValue :=
  Injectable class_ConfigService ;;
  Injectable class_ConsoleLoggerService ;;
  Injectable class_FileLoggerService ;;
  Injectable class_CloudLoggerService ;;
  Inject tokenText ConfigService LoggerFactory "configService" ;;
  Inject tokenText ConsoleLoggerService LoggerFactory "consoleLogger" ;;
  Inject tokenText FileLoggerService LoggerFactory "fileLogger" ;;
  Inject tokenText CloudLoggerService LoggerFactory "cloudLogger" ;;
  Injectable class_LoggerFactory.

(** The class declarations, top to bottom. Within one declaration the
    property decorators run in textual order, then the class decorator. *)
Definition declarations : M World JsValue :=
  declarations_through_LoggerFactory ;;
  Inject tokenText LoggerFactory UserService "loggerFactory" ;;
  Injectable class_UserService ;;
  Inject tokenText UserService Main "userService" ;;
  Injectable class_Main.

(** The module, top to bottom. *)
Definition program : M World JsValue :=
  console_clear ;;
  modify (set_container new_Container) ;;
  declarations ;;
  main <- container_resolve tokenText Main ;;
  invoke main "init" [ (Main, Main_init) ].

End Demo.

(** [index.ts] as written: [getEnvConfig] returns ['console']. *)
Definition index_ts (tokenText : Token -> string) : M World JsValue :=
  program tokenText "console".

(** How often [token] was resolved, and how often a class was constructed,
    in a history. *)
Definition resolutions (token : Token) (history : list Call) : nat :=
  length (filter (fun c => c = CResolve token) history).

Definition constructions (token : Token) (history : list Call) : nat :=
  length (filter (fun c => c = CNew token) history).

(** The identities registered in a history, in the order of registration. *)
Definition registration_order (history : list Call) : list Token :=
  omap (fun c => match c with CRegister token _ => Some token | _ => None end) history.

(** Whether [needle] occurs in [text]. *)
Definition mentions (text needle : string) : bool :=
  bool_decide (is_Some (String.index 0 needle text)).

(** A sample rendering of constructor functions, for concrete runs. *)
Definition sample_tokenText (token : Token) : string :=
  "class C" ++ pretty (Npos token) ++ " { }".

(** ** Invariants and auxiliary notions *)

(** Every stored instance is an object, as after registrations made by
    [Injectable] only. *)
Definition holds_objects (c : Container) : Prop :=
  map_Forall (fun _ v => is_object v = true) (services c).


(** The prefix the [log] method of a logger class puts before a message. *)
Definition logger_prefix (c : Token) : option string :=
  if decide (c = ConsoleLoggerService) then Some "[console]: "
  else if decide (c = FileLoggerService) then Some "[file]: "
  else if decide (c = CloudLoggerService) then Some "[cloud]: "
  else None.

(** ** The version with constructor injection *)

(** The second source file declares [UserService] and [Main] anew, each
    taking its collaborator as constructor argument; the logger is called
    through its [log] method as above. Only the two classes are modelled:
    the statement that follows them in the file refers to a class the file
    does not declare. *)
Module Basic.

Definition UserService : Token := 8%positive.
Definition Main : Token := 9%positive.

(** [new UserService(loggerService)] *)
Definition new_UserService (loggerService : JsValue) : M World JsValue :=
  this <- allocate UserService ;;
  set_prop this "loggerService" loggerService ;;
  ret (VObj this).

Definition UserService_login (username password : string) (this : JsValue)
  : M World JsValue :=
  loggerService <- get_prop this "loggerService" ;;
  ILogger_log loggerService
    ("Logggin in user with " ++ username ++ " and " ++ password).

Definition UserService_updateUsername (newUsername : string) (this : JsValue)
  : M World JsValue :=
  loggerService <- get_prop this "loggerService" ;;
  ILogger_log loggerService ("updating Username " ++ newUsername).

Definition UserService_logout (this : JsValue) : M World JsValue :=
  loggerService <- get_prop this "loggerService" ;;
  ILogger_log loggerService "logging out user".

(** [new Main(userservice)] *)
Definition new_Main (userservice : JsValue) : M World JsValue :=
  this <- allocate Main ;;
  set_prop this "userService" userservice ;;
  ret (VObj this).

Definition Main_init (this : JsValue) : M World JsValue :=
  userService <- get_prop this "userService" ;;
  invoke userService "login" [ (UserService, UserService_login "John" "Jogn@123") ] ;;
  userService <- get_prop this "userService" ;;
  invoke userService "updateUsername" [ (UserService, UserService_updateUsername "bob") ] ;;
  userService <- get_prop this "userService" ;;
  invoke userService "logout" [ (UserService, UserService_logout) ] ;;
  ret VUndefined.

(** No accessor was defined on the prototypes of the two classes: the file
    applies no decorator. *)
Definition undecorated (w : World) : Prop :=
  map_Forall (fun k _ => k.1 <> UserService /\ k.1 <> Main) (protos w).

End Basic.

(** * Properties *)

(** ** The monad *)

Lemma bind_Ok {S A B} (m : M S A) (k : A -> M S B) s a s' :
  m s = (Ok a, s') -> bind m k s = k a s'.
Proof. intros H. unfold bind. by rewrite H. Qed.

Lemma bind_Throw {S A B} (m : M S A) (k : A -> M S B) s e s' :
  m s = (Throw e, s') -> bind m k s = (Throw e, s').
Proof. intros H. unfold bind. by rewrite H. Qed.

(** A computation that returns [a] and leaves the state alone does so
    however often it is run. *)
Lemma times_stable {S A} (m : M S A) s a n :
  m s = (Ok a, s) -> times n m s = (Ok (replicate n a), s).
Proof.
  intros H. induction n as [|n IH]; [done|].
  cbn [times replicate]. rewrite (bind_Ok _ _ _ _ _ H).
  by rewrite (bind_Ok _ _ _ _ _ IH).
Qed.

(** ** The container *)

Section ContainerFacts.

Variable tokenText : Token -> string.

Lemma register_services token instance c :
  services (register token instance c).2 = <[token := instance]> (services c).
Proof. done. Qed.

Lemma Map_get_Some (m : gmap Token JsValue) token v :
  m !! token = Some v -> Map_get m token = v.
Proof. unfold Map_get. by intros ->. Qed.

Lemma Map_get_None (m : gmap Token JsValue) token :
  m !! token = None -> Map_get m token = VUndefined.
Proof. unfold Map_get. by intros ->. Qed.

(** [resolve] is decided by the truthiness of what [Map.get] yields. *)
Lemma resolve_truthy token c :
  ToBoolean (Map_get (services c) token) = true ->
  resolve tokenText token c = (Ok (Map_get (services c) token), c).
Proof. intros H. unfold resolve, bind, gets. cbn. by rewrite H. Qed.

Lemma resolve_falsy token c :
  ToBoolean (Map_get (services c) token) = false ->
  resolve tokenText token c =
    (Throw (Error ("Service not found for token: " ++ tokenText token)), c).
Proof. intros H. unfold resolve, bind, gets. cbn. by rewrite H. Qed.

Lemma resolve_state token c : (resolve tokenText token c).2 = c.
Proof.
  destruct (ToBoolean (Map_get (services c) token)) eqn:E.
  - by rewrite resolve_truthy.
  - by rewrite resolve_falsy.
Qed.

End ContainerFacts.

Section ContainerClaims.

Variable tokenText : Token -> string.


(** C4 (amended). When the registry holds a truthy instance [i] for the
    identity [T] (every object is truthy), each of any number of successive
    calls of [resolve(T)] returns [i] itself, the very reference that is
    stored, and leaves the container as it was. *)
Theorem resolve_returns_registered_instance
  (token : Token) (i : JsValue) (c : Container) (n : nat) :
  services c !! token = Some i ->
  ToBoolean i = true ->
  resolve tokenText token c = (Ok i, c)
  /\ times n (resolve tokenText token) c = (Ok (replicate n i), c).
Proof.
  intros Hlk Hi.
  assert (resolve tokenText token c = (Ok i, c)) as H.
  { pose proof (Map_get_Some _ _ _ Hlk) as Hget.
    rewrite resolve_truthy; by rewrite Hget. }
  split; [done|]. by apply times_stable.
Qed.

(** C5 (amended). Registering an identity a second time, with another
    instance, overwrites the first registration: the store then holds the
    second instance, and only it, under that identity, with every other key
    as before. [resolve] on that identity does not return the first instance
    any more, and it returns the second one whenever that one is truthy. *)
Theorem register_twice_overwrites
  (token : Token) (first second : JsValue) (c : Container) :
  first <> second ->
  let c2 := (register token second (register token first c).2).2 in
  services c2 = <[token := second]> (services c)
  /\ services c2 !! token = Some second
  /\ (forall other, other <> token -> services c2 !! other = services c !! other)
  /\ (resolve tokenText token c2).1 <> Ok first
  /\ (ToBoolean second = true -> resolve tokenText token c2 = (Ok second, c2)).
Proof.
  intros Hne c2.
  assert (services c2 = <[token := second]> (services c)) as Hs.
  { subst c2. rewrite !register_services. apply insert_insert_eq. }
  assert (services c2 !! token = Some second) as Hlk.
  { rewrite Hs. apply lookup_insert_eq. }
  pose proof (Map_get_Some _ _ _ Hlk) as Hget.
  split; [done|]. split; [done|]. split; [|split].
  - intros other Ho. rewrite Hs. by apply lookup_insert_ne.
  - destruct (ToBoolean second) eqn:Ht.
    + rewrite resolve_truthy by (by rewrite Hget). rewrite Hget. cbn. congruence.
    + by rewrite resolve_falsy by (by rewrite Hget).
  - intros Ht. rewrite resolve_truthy by (by rewrite Hget). by rewrite Hget.
Qed.


End ContainerClaims.

(** ** The decorators *)

Lemma resolutions_app token h1 h2 :
  resolutions token (h1 ++ h2) = resolutions token h1 + resolutions token h2.
Proof. unfold resolutions. by rewrite filter_app, length_app. Qed.

Lemma constructions_app token h1 h2 :
  constructions token (h1 ++ h2) = constructions token h1 + constructions token h2.
Proof. unfold constructions. by rewrite filter_app, length_app. Qed.

Lemma constructions_register token k v :
  constructions token [CRegister k v] = 0.
Proof. unfold constructions. by rewrite filter_cons_False. Qed.

(** Reading through the accessor of the prototype: the captured value, and
    no effect. *)
Lemma get_prop_accessor w l o key d :
  heap w !! l = Some o ->
  obj_fields o !! key = None ->
  protos w !! (obj_class o, key) = Some d ->
  get_prop (VObj l) key w = (Ok (get d), w).
Proof. intros Hl Ho Hp. unfold get_prop. by rewrite Hl, Ho, Hp. Qed.


Lemma new_result_object this returned : exists l, new_result this returned = VObj l.
Proof. destruct returned; by eexists. Qed.

(** [new C] is one allocation followed by one run of the constructor body. *)
Lemma new_unfold (C : JsClass) (w : World) :
  new_ C w =
    match cls_constructor C (length (heap w)) (allocate (cls_id C) w).2 with
    | (Ok returned, wc) => (Ok (new_result (length (heap w)) returned), wc)
    | (Throw e, wc) => (Throw e, wc)
    end.
Proof.
  unfold new_, bind, allocate, ret. cbn [fst snd].
  by destruct (cls_constructor C _ _) as [[?|?] ?].
Qed.

Section DecoratorFacts.

Variable tokenText : Token -> string.

Lemma container_resolve_truthy token w :
  ToBoolean (Map_get (services (container w)) token) = true ->
  container_resolve tokenText token w =
    (Ok (Map_get (services (container w)) token), record_call (CResolve token) w).
Proof.
  intros H. unfold container_resolve, on_container. cbn [container record_call].
  by rewrite resolve_truthy.
Qed.

Lemma container_resolve_falsy token w :
  ToBoolean (Map_get (services (container w)) token) = false ->
  container_resolve tokenText token w =
    (Throw (Error ("Service not found for token: " ++ tokenText token)),
     record_call (CResolve token) w).
Proof.
  intros H. unfold container_resolve, on_container. cbn [container record_call].
  by rewrite resolve_falsy.
Qed.

(** What a successful [Inject] did. *)
Lemma Inject_Ok_inv token target key w r w1 :
  Inject tokenText token target key w = (Ok r, w1) ->
  let v := Map_get (services (container w)) token in
  ToBoolean v = true
  /\ w1 = set_protos
            (<[(target, key) := {| get := v; enumerable := true; configurable := true |}]>
               (protos w))
            (record_call (CResolve token) w).
Proof.
  intros H v. unfold Inject in H.
  destruct (ToBoolean v) eqn:Hv.
  - rewrite (bind_Ok _ _ _ _ _ (container_resolve_truthy _ _ Hv)) in H.
    split; [done|]. fold v in H.
    unfold bind, Object_defineProperty, ret in H. cbn [protos record_call] in H.
    destruct (protos w !! (target, key)) as [d|]; [destruct (configurable d)|];
      by inversion H.
  - by rewrite (bind_Throw _ _ _ _ _ (container_resolve_falsy _ _ Hv)) in H.
Qed.

End DecoratorFacts.

Section DecoratorClaims.

Variable tokenText : Token -> string.


(** C3. A successful [Inject] resolves its dependency exactly once, when the
    decorator runs: the history gains one resolution of the identity. The
    accessor it installs holds the instance found then. From there on, as
    long as that accessor is the one in place, any number of reads of the
    property on an instance of the owning class return that same instance and
    change nothing, so no read resolves again, whatever the registry holds by
    then. *)
Theorem Inject_resolves_once
  (token target : Token) (key : string) (w w1 : World) (r : JsValue) :
  Inject tokenText token target key w = (Ok r, w1) ->
  let v := Map_get (services (container w)) token in
  resolutions token (calls w1) = S (resolutions token (calls w))
  /\ protos w1 !! (target, key) =
       Some {| get := v; enumerable := true; configurable := true |}
  /\ forall (w2 : World) (l : nat) (o : Obj) (n : nat),
       protos w2 !! (target, key) = protos w1 !! (target, key) ->
       heap w2 !! l = Some o ->
       obj_class o = target ->
       obj_fields o !! key = None ->
       times n (get_prop (VObj l) key) w2 = (Ok (replicate n v), w2).
Proof.
  intros H v. destruct (Inject_Ok_inv _ _ _ _ _ _ _ H) as [Hv ->]. fold v.
  assert (protos
            (set_protos
               (<[(target, key) :=
                    {| get := v; enumerable := true; configurable := true |}]>
                  (protos w))
               (record_call (CResolve token) w)) !! (target, key) =
          Some {| get := v; enumerable := true; configurable := true |}) as Hp.
  { cbn [protos set_protos]. apply lookup_insert_eq. }
  split; [|split; [done|]].
  - cbn [calls set_protos record_call]. rewrite resolutions_app.
    unfold resolutions at 2. rewrite filter_cons_True by done. cbn. lia.
  - intros w2 l o n Hsame Hl Hc Hf. rewrite Hp in Hsame.
    apply times_stable.
    rewrite <- Hc in Hsame.
    by rewrite (get_prop_accessor _ _ _ _ _ Hl Hf Hsame).
Qed.

(** C6 (amended). [Injectable] evaluates [new] once: it allocates one object
    of the class and runs the constructor body on it. If the body returns,
    what [new] yields, the allocated object or else the object the body
    returned, is registered under the identity of the class, so that
    [resolve] then yields it, and the hook constructs nothing else. If the
    body throws, the hook throws the same error and ends in the very state
    in which the body threw: the hook itself registers nothing, and the
    registry is what the constructor body left. *)
Theorem Injectable_registers_one_instance_or_nothing (C : JsClass) (w : World) :
  let this := length (heap w) in
  let w0 := (allocate (cls_id C) w).2 in
  heap w !! this = None
  /\ heap w0 = (heap w ++ [{| obj_class := cls_id C; obj_fields := ∅ |}])%list
  /\ container w0 = container w
  /\ constructions (cls_id C) (calls w0) = S (constructions (cls_id C) (calls w))
  /\ match cls_constructor C this w0 with
     | (Ok returned, wc) =>
         Injectable C w =
           (Ok VUndefined,
            set_container
              {| services :=
                   <[cls_id C := new_result this returned]> (services (container wc)) |}
              (record_call (CRegister (cls_id C) (new_result this returned)) wc))
         /\ (is_object returned = false -> new_result this returned = VObj this)
         /\ (container_resolve tokenText (cls_id C) (Injectable C w).2).1 =
              Ok (new_result this returned)
         /\ constructions (cls_id C) (calls (Injectable C w).2) =
              constructions (cls_id C) (calls wc)
     | (Throw e, wc) =>
         Injectable C w = (Throw e, wc)
     end.
Proof.
  intros this w0.
  split; [by apply lookup_ge_None_2|].
  split; [done|]. split; [done|].
  split.
  { subst w0. cbn [allocate calls record_call snd set_heap].
    rewrite constructions_app. unfold constructions at 2.
    rewrite filter_cons_True by done. cbn. lia. }
  destruct (cls_constructor C this w0) as [[returned|e] wc] eqn:Hctor.
  - assert (new_ C w = (Ok (new_result this returned), wc)) as Hnew.
    { rewrite new_unfold. fold this w0. by rewrite Hctor. }
    assert (Injectable C w =
              (Ok VUndefined,
               set_container
                 {| services :=
                      <[cls_id C := new_result this returned]> (services (container wc)) |}
                 (record_call (CRegister (cls_id C) (new_result this returned)) wc)))
      as HI.
    { unfold Injectable. by rewrite (bind_Ok _ _ _ _ _ Hnew). }
    rewrite HI. cbn [snd]. split; [done|]. split; [|split].
    + by destruct returned.
    + destruct (new_result_object this returned) as [l Hl].
      rewrite container_resolve_truthy;
        cbn [container set_container services]; unfold Map_get;
        rewrite lookup_insert_eq; cbn [default]; by rewrite ?Hl.
    + cbn [calls set_container record_call]. rewrite constructions_app.
      rewrite constructions_register. lia.
  - assert (new_ C w = (Throw e, wc)) as Hnew.
    { rewrite new_unfold. fold this w0. by rewrite Hctor. }
    unfold Injectable. by rewrite (bind_Throw _ _ _ _ _ Hnew).
Qed.

End DecoratorClaims.

(** ** The demo services *)

Lemma invoke_Ok receiver method bodies c body w :
  lookup_method receiver method w = (Ok c, w) ->
  list_find (fun cb => bool_decide (cb.1 = c)) bodies = Some body ->
  invoke receiver method bodies w = body.2.2 receiver w.
Proof.
  intros Hc Hf. unfold invoke. rewrite (bind_Ok _ _ _ _ _ Hc), Hf.
  by destruct body as [? [? ?]].
Qed.

(** What [getEnvConfig] hands to the [switch] of [getLogger]. *)
Lemma getLogger_switch (config : string) (this configService : JsValue) (w : World) :
  get_prop this "configService" w = (Ok configService, w) ->
  lookup_method configService "getEnvConfig" w = (Ok ConfigService, w) ->
  LoggerFactory_getLogger config this w =
    (if String.eqb config "console" then get_prop this "consoleLogger"
     else if String.eqb config "file" then get_prop this "fileLogger"
     else if String.eqb config "cloud" then get_prop this "cloudLogger"
     else throw (Error "unknown logger service instance")) w.
Proof.
  intros Hp Hc. unfold LoggerFactory_getLogger.
  rewrite (bind_Ok _ _ _ _ _ Hp).
  unfold bind at 1.
  erewrite invoke_Ok; [|exact Hc|reflexivity].
  done.
Qed.

Section DemoClaims.

Variable tokenText : Token -> string.

(** C7. Run from a fresh state, the module as written, where [getEnvConfig]
    returns ['console'], registers its seven classes in the order
    [ConfigService], [ConsoleLoggerService], [FileLoggerService],
    [CloudLoggerService], [LoggerFactory], [UserService], [Main], resolves
    [Main], runs [init] to completion and has then written exactly the three
    [[console]: ...] lines, in order. *)
Theorem index_ts_output :
  let r := index_ts tokenText initial_world in
  r.1 = Ok VUndefined
  /\ registration_order (calls r.2) =
       [ConfigService; ConsoleLoggerService; FileLoggerService;
        CloudLoggerService; LoggerFactory; UserService; Main]
  /\ out (declarations tokenText "console" initial_world).2 = []
  /\ out r.2 =
       ["[console]: logging in user with john and john@123";
        "[console]: updating username bob";
        "[console]: logging out user"].
Proof. vm_compute. done. Qed.

(** C8. With ['file'] as the value [getEnvConfig] returns and nothing else
    changed, the run completes, registers the classes in the same order as
    the run under ['console'], and writes the same three lines with the
    [[file]:] prefix where that run writes them with [[console]:]. In the
    state the run ends in, [getLogger] on the registered factory returns the
    registered [FileLoggerService] instance under ['file'] and the registered
    [ConsoleLoggerService] instance, another object, under ['console']: the
    value of the configuration alone selects. In any state in which
    [getEnvConfig] is reached on the configuration service, [getLogger]
    returns what the [fileLogger] property reads as under ['file'] and what
    [consoleLogger] reads as under ['console']. *)
Theorem program_file_output :
  let rc := program tokenText "console" initial_world in
  let rf := program tokenText "file" initial_world in
  rf.1 = Ok VUndefined
  /\ registration_order (calls rf.2) =
       [ConfigService; ConsoleLoggerService; FileLoggerService;
        CloudLoggerService; LoggerFactory; UserService; Main]
  /\ registration_order (calls rf.2) = registration_order (calls rc.2)
  /\ out rf.2 =
       ["[file]: logging in user with john and john@123";
        "[file]: updating username bob";
        "[file]: logging out user"]
  /\ out rc.2 =
       ["[console]: logging in user with john and john@123";
        "[console]: updating username bob";
        "[console]: logging out user"]
  /\ (exists factory consoleLogger fileLogger,
        services (container rf.2) !! LoggerFactory = Some factory
        /\ services (container rf.2) !! ConsoleLoggerService = Some consoleLogger
        /\ services (container rf.2) !! FileLoggerService = Some fileLogger
        /\ consoleLogger <> fileLogger
        /\ LoggerFactory_getLogger "file" factory rf.2 = (Ok fileLogger, rf.2)
        /\ LoggerFactory_getLogger "console" factory rf.2 = (Ok consoleLogger, rf.2))
  /\ (forall w this configService,
        get_prop this "configService" w = (Ok configService, w) ->
        lookup_method configService "getEnvConfig" w = (Ok ConfigService, w) ->
        LoggerFactory_getLogger "file" this w = get_prop this "fileLogger" w
        /\ LoggerFactory_getLogger "console" this w = get_prop this "consoleLogger" w).
Proof.
  split; [by vm_compute|]. split; [by vm_compute|]. split; [by vm_compute|].
  split; [by vm_compute|]. split; [by vm_compute|].
  split.
  - exists (VObj 4), (VObj 1), (VObj 2). by vm_compute.
  - intros w this cs Hcs Hc.
    by rewrite !(getLogger_switch _ _ _ _ Hcs Hc).
Qed.

(** C9 (amended). For every configuration value other than ['console'],
    ['file'] and ['cloud'] that [getEnvConfig], reached on the configuration
    service of the factory, hands to the selection, [getLogger] throws
    instead of picking a logger. What it throws is an [Error] with the fixed
    message ['unknown logger service instance'], whatever the value was. *)
Theorem getLogger_unrecognized_throws
  (config : string) (w : World) (this configService : JsValue) :
  get_prop this "configService" w = (Ok configService, w) ->
  lookup_method configService "getEnvConfig" w = (Ok ConfigService, w) ->
  config <> "console" ->
  config <> "file" ->
  config <> "cloud" ->
  LoggerFactory_getLogger config this w =
    (Throw (Error "unknown logger service instance"), w).
Proof.
  intros Hcs Hc H1 H2 H3. rewrite (getLogger_switch _ _ _ _ Hcs Hc).
  apply String.eqb_neq in H1, H2, H3. by rewrite H1, H2, H3.
Qed.

End DemoClaims.

(** ** Concrete runs *)


(** C4, counterexample. An identity registered with the empty string: the
    store holds that instance, and [resolve] throws instead of returning
    it. *)
Lemma resolve_does_not_return_falsy_instance :
  let c := (register 1%positive (VStr "") new_Container).2 in
  services c !! 1%positive = Some (VStr "")
  /\ resolve sample_tokenText 1%positive c =
       (Throw (Error "Service not found for token: class C1 { }"), c)
  /\ (resolve sample_tokenText 1%positive c).1 <> Ok (VStr "").
Proof. by repeat split. Qed.

(** C5, counterexample. A second registration with [null]: it overwrites the
    first, and [resolve] then throws instead of returning the second
    instance. *)
Lemma resolve_after_falsy_reregistration_throws :
  let c1 := (register 1%positive (VObj 0) new_Container).2 in
  let c2 := (register 1%positive VNull c1).2 in
  resolve sample_tokenText 1%positive c1 = (Ok (VObj 0), c1)
  /\ services c2 !! 1%positive = Some VNull
  /\ resolve sample_tokenText 1%positive c2 =
       (Throw (Error "Service not found for token: class C1 { }"), c2)
  /\ (resolve sample_tokenText 1%positive c2).1 <> Ok VNull.
Proof. by repeat split. Qed.

(** C9, counterexample. With the factory wired as in the module and ['xml']
    as configuration value, [getLogger] throws an error whose message does
    not contain ['xml'], and is the very error thrown for ['db']. *)
Lemma getLogger_error_does_not_name_value :
  let w := (declarations_through_LoggerFactory sample_tokenText initial_world).2 in
  LoggerFactory_getLogger "xml" (VObj 4) w =
    (Throw (Error "unknown logger service instance"), w)
  /\ mentions "unknown logger service instance" "xml" = false
  /\ mentions "unknown logger service instance" "logger" = true
  /\ LoggerFactory_getLogger "db" (VObj 4) w = LoggerFactory_getLogger "xml" (VObj 4) w.
Proof. by vm_compute. Qed.

(** C6, counterexample. A class whose constructor registers the object under
    construction and then throws: the hook throws, and the registry, empty
    before, has an entry afterwards. And a class whose constructor returns
    the registered [ConfigService] instance: the hook allocates an object of
    the class, and what it registers under the class is the other object. *)
Lemma Injectable_constructor_effects_reach_registry :
  let throwing :=
    {| cls_id := 10%positive;
       cls_constructor := fun this =>
         bind (container_register ConfigService (VObj this))
           (fun _ => throw (Error "boom")) |} in
  let returning :=
    {| cls_id := 10%positive;
       cls_constructor := fun _ => container_resolve sample_tokenText ConfigService |} in
  let w := (Injectable class_ConfigService initial_world).2 in
  (Injectable throwing initial_world).1 = Throw (Error "boom")
  /\ services (container initial_world) !! ConfigService = None
  /\ services (container (Injectable throwing initial_world).2) !! ConfigService =
       Some (VObj 0)
  /\ (Injectable returning w).1 = Ok VUndefined
  /\ heap (Injectable returning w).2 !! 1 =
       Some {| obj_class := 10%positive; obj_fields := ∅ |}
  /\ services (container (Injectable returning w).2) !! 10%positive = Some (VObj 0).
Proof. by vm_compute. Qed.

(** The constructor of [UserService] throws under configuration ['xml']:
    the hook throws that error, [UserService] is not registered and the
    registry is as it was before the hook ran. *)
Example Injectable_UserService_unknown_config :
  let w := (Inject sample_tokenText LoggerFactory UserService "loggerFactory"
              (declarations_through_LoggerFactory sample_tokenText initial_world).2).2 in
  (Injectable (class_UserService "xml") w).1 =
    Throw (Error "unknown logger service instance")
  /\ container (Injectable (class_UserService "xml") w).2 = container w
  /\ services (container (Injectable (class_UserService "xml") w).2) !! UserService = None.
Proof. by vm_compute. Qed.


(** C3, witness: [configService] injected into [LoggerFactory], read three
    times on the factory after [ConfigService] was registered anew. *)
Lemma Inject_resolves_once_witness :
  let w := (Injectable class_ConfigService initial_world).2 in
  let w1 := (Inject sample_tokenText ConfigService LoggerFactory "configService" w).2 in
  let w2 := (container_register ConfigService (VObj 7)
               (Injectable class_LoggerFactory w1).2).2 in
  Inject sample_tokenText ConfigService LoggerFactory "configService" w =
    (Ok VUndefined, w1)
  /\ resolutions ConfigService (calls w) = 0
  /\ resolutions ConfigService (calls w1) = 1
  /\ times 3 (get_prop (VObj 1) "configService") w2 =
       (Ok [VObj 0; VObj 0; VObj 0], w2).
Proof.
  intros w w1 w2.
  destruct (Inject_resolves_once sample_tokenText ConfigService LoggerFactory
              "configService" w w1 VUndefined eq_refl) as (H1 & _ & H3).
  split; [reflexivity|]. split; [reflexivity|]. split; [exact H1|].
  exact (H3 w2 1 {| obj_class := LoggerFactory; obj_fields := ∅ |} 3
           eq_refl eq_refl eq_refl eq_refl).
Defined.

(** C4, witness: three calls on a registered object. *)
Lemma resolve_returns_registered_instance_witness :
  let c := (register ConfigService (VObj 0) new_Container).2 in
  services c !! ConfigService = Some (VObj 0)
  /\ ToBoolean (VObj 0) = true
  /\ times 3 (resolve sample_tokenText ConfigService) c =
       (Ok [VObj 0; VObj 0; VObj 0], c).
Proof.
  intros c. split; [reflexivity|]. split; [reflexivity|].
  exact (proj2 (resolve_returns_registered_instance sample_tokenText
                  ConfigService (VObj 0) c 3 eq_refl eq_refl)).
Defined.

(** C5, witness: [ConfigService] registered with one object, then with
    another. *)
Lemma register_twice_overwrites_witness :
  let c2 := (register ConfigService (VObj 1)
               (register ConfigService (VObj 0) new_Container).2).2 in
  VObj 0 <> VObj 1
  /\ services c2 !! ConfigService = Some (VObj 1)
  /\ resolve sample_tokenText ConfigService c2 = (Ok (VObj 1), c2).
Proof.
  intros c2.
  assert (VObj 0 <> VObj 1) as Hne by discriminate.
  destruct (register_twice_overwrites sample_tokenText ConfigService
              (VObj 0) (VObj 1) new_Container Hne) as (_ & H2 & _ & _ & H5).
  split; [exact Hne|]. split; [exact H2|exact (H5 eq_refl)].
Defined.

(** C9, witness: the factory of the module under configuration ['xml']. *)
Lemma getLogger_unrecognized_throws_witness :
  let w := (declarations_through_LoggerFactory sample_tokenText initial_world).2 in
  get_prop (VObj 4) "configService" w = (Ok (VObj 0), w)
  /\ lookup_method (VObj 0) "getEnvConfig" w = (Ok ConfigService, w)
  /\ LoggerFactory_getLogger "xml" (VObj 4) w =
       (Throw (Error "unknown logger service instance"), w).
Proof.
  intros w.
  assert (get_prop (VObj 4) "configService" w = (Ok (VObj 0), w)) as Hcs
    by (vm_compute; reflexivity).
  assert (lookup_method (VObj 0) "getEnvConfig" w = (Ok ConfigService, w)) as Hc
    by (vm_compute; reflexivity).
  split; [exact Hcs|]. split; [exact Hc|].
  apply (getLogger_unrecognized_throws "xml" w (VObj 4) (VObj 0) Hcs Hc);
    discriminate.
Defined.


(** * Further properties of the code *)

(** ** The container *)

Section ContainerExtras.

Variable tokenText : Token -> string.

(** The outcome of [resolve] is a function of what the store holds for the
    identity. *)
Lemma resolve_outcome_by_lookup token c d :
  services c !! token = services d !! token ->
  (resolve tokenText token c).1 = (resolve tokenText token d).1.
Proof.
  intros H.
  assert (Map_get (services c) token = Map_get (services d) token) as Hg
    by (unfold Map_get; by rewrite H).
  destruct (ToBoolean (Map_get (services c) token)) eqn:E.
  - rewrite resolve_truthy by done. rewrite resolve_truthy by (by rewrite <- Hg).
    cbn. by rewrite Hg.
  - rewrite resolve_falsy by done. by rewrite resolve_falsy by (by rewrite <- Hg).
Qed.

(** X1. Registering one identity changes nothing for any other identity:
    [resolve] on another identity returns, or throws, exactly what it did
    before the registration. *)
Theorem register_leaves_other_identities
  (token other : Token) (instance : JsValue) (c : Container) :
  other <> token ->
  (resolve tokenText other (register token instance c).2).1 =
    (resolve tokenText other c).1.
Proof.
  intros Hne. apply resolve_outcome_by_lookup.
  rewrite register_services. by apply lookup_insert_ne.
Qed.

(** X2. Registrations of two different identities can be made in either
    order, and registering the same instance under an identity twice is the
    same as once: [resolve] on any identity cannot tell the difference. *)
Theorem register_order_unobservable
  (a b : Token) (x y : JsValue) (c : Container) (k : Token) :
  a <> b ->
  (resolve tokenText k (register a x (register b y c).2).2).1 =
    (resolve tokenText k (register b y (register a x c).2).2).1
  /\ (resolve tokenText k (register a x (register a x c).2).2).1 =
       (resolve tokenText k (register a x c).2).1.
Proof.
  intros Hne. split; apply resolve_outcome_by_lookup; rewrite !register_services.
  - by rewrite insert_insert_ne.
  - by rewrite insert_insert_eq.
Qed.

(** X3. As long as every stored instance is an object, which is what
    [new] always yields, [resolve] fails exactly when the store has no entry
    for the identity, and returns the stored object otherwise. *)
Theorem resolve_among_objects_fails_iff_absent (token : Token) (c : Container) :
  holds_objects c ->
  ((exists e, (resolve tokenText token c).1 = Throw e) <->
     services c !! token = None)
  /\ (forall v, services c !! token = Some v ->
        resolve tokenText token c = (Ok v, c)).
Proof.
  intros Hobj.
  assert (forall v, services c !! token = Some v ->
            resolve tokenText token c = (Ok v, c)) as Hsome.
  { intros v Hlk. pose proof (Hobj _ _ Hlk) as Hv. cbn in Hv.
    destruct v; try done.
    rewrite resolve_truthy; by rewrite (Map_get_Some _ _ _ Hlk). }
  split; [|done]. split.
  - intros [e He]. destruct (services c !! token) as [v|] eqn:Hlk; [|done].
    by rewrite (Hsome v eq_refl) in He.
  - intros Hlk. rewrite resolve_falsy by (by rewrite (Map_get_None _ _ Hlk)).
    by eexists.
Qed.

End ContainerExtras.

(** ** The decorators *)




Lemma holds_objects_decide (c : Container) :
  bool_decide (map_Forall (fun _ v => is_object v = true) (services c)) = true ->
  holds_objects c.
Proof. apply bool_decide_eq_true_1. Qed.

Section DecoratorExtras.

Variable tokenText : Token -> string.

(** X4. When the constructor leaves only objects in the registry,
    [Injectable] does too: what it registers is the object [new] yielded.
    The registry of a module that registers through [Injectable] alone
    therefore holds objects only. *)
Theorem Injectable_keeps_objects (C : JsClass) (w : World) :
  holds_objects (container (new_ C w).2) ->
  holds_objects (container (Injectable C w).2).
Proof.
  intros H. rewrite new_unfold in H. unfold Injectable.
  destruct (cls_constructor C (length (heap w)) (allocate (cls_id C) w).2)
    as [[u|e] wc] eqn:Hctor.
  - erewrite bind_Ok; [|by rewrite new_unfold, Hctor].
    destruct (new_result_object (length (heap w)) u) as [l ->].
    cbn in *. by apply map_Forall_insert_2.
  - erewrite bind_Throw; [|by rewrite new_unfold, Hctor]. done.
Qed.



(** X7. A second [Inject] on the same property of the same class rebinds it:
    afterwards the accessor holds the instance the second one resolved, and
    as long as that accessor is in place this is what an instance of the
    class reads. *)
Theorem Inject_again_rebinds
  (token1 token2 target : Token) (key : string) (w w1 w2 : World)
  (r1 r2 : JsValue) :
  Inject tokenText token1 target key w = (Ok r1, w1) ->
  Inject tokenText token2 target key w1 = (Ok r2, w2) ->
  let v2 := Map_get (services (container w)) token2 in
  protos w2 !! (target, key) =
    Some {| get := v2; enumerable := true; configurable := true |}
  /\ forall w3 l o,
       protos w3 !! (target, key) = protos w2 !! (target, key) ->
       heap w3 !! l = Some o ->
       obj_class o = target ->
       obj_fields o !! key = None ->
       get_prop (VObj l) key w3 = (Ok v2, w3).
Proof.
  intros H1 H2 v2.
  destruct (Inject_Ok_inv _ _ _ _ _ _ _ H1) as [_ ->].
  destruct (Inject_Ok_inv _ _ _ _ _ _ _ H2) as [_ ->].
  cbn [container set_protos record_call protos] in *. fold v2.
  assert (forall (m : gmap (Token * string) PropertyDescriptor) d,
            <[(target, key) := d]> m !! (target, key) = Some d) as Hlk
    by (intros; apply lookup_insert_eq).
  split; [apply Hlk|].
  intros w3 l o Hsame Hl Hc Hf. rewrite Hlk in Hsame.
  apply (get_prop_accessor _ _ _ _
           {| get := v2; enumerable := true; configurable := true |} Hl Hf).
  by rewrite Hc.
Qed.

(** X8. The accessor [Inject] installs has no setter: as long as it is in
    place, assigning to the injected property of an instance, as code of a
    class body would, throws a [TypeError] and changes nothing. *)
Theorem injected_property_is_read_only
  (token target : Token) (key : string) (w w1 w2 : World) (r : JsValue)
  (l : nat) (o : Obj) (value : JsValue) :
  Inject tokenText token target key w = (Ok r, w1) ->
  protos w2 !! (target, key) = protos w1 !! (target, key) ->
  heap w2 !! l = Some o ->
  obj_class o = target ->
  obj_fields o !! key = None ->
  exists message, set_prop l key value w2 = (Throw (TypeError message), w2).
Proof.
  intros H Hsame Hl Hc Hf.
  destruct (Inject_Ok_inv _ _ _ _ _ _ _ H) as [_ Hw1].
  assert (is_Some (protos w2 !! (target, key))) as [d Hd].
  { rewrite Hsame, Hw1. cbn [protos set_protos]. rewrite lookup_insert_eq.
    by eexists. }
  unfold set_prop. rewrite Hl, Hf, Hc, Hd. by eexists.
Qed.

End DecoratorExtras.

(** ** The demo services *)

(** Reading a property and looking a method up consult the objects and the
    prototypes only, and change nothing. *)
Lemma get_prop_state receiver key w : (get_prop receiver key w).2 = w.
Proof.
  unfold get_prop. destruct receiver; try done.
  destruct (heap w !! l) as [o|]; [|done].
  destruct (obj_fields o !! key); [done|].
  by destruct (protos w !! (obj_class o, key)).
Qed.

Lemma get_prop_set_out receiver key lines w v :
  get_prop receiver key w = (Ok v, w) ->
  get_prop receiver key (set_out lines w) = (Ok v, set_out lines w).
Proof.
  unfold get_prop. destruct receiver; try done; cbn [heap protos set_out].
  - by intros [= ->].
  - by intros [= ->].
  - by intros [= ->].
  - by intros [= ->].
  - destruct (heap w !! l) as [o|]; [|by intros [= ->]].
    destruct (obj_fields o !! key); [by intros [= ->]|].
    destruct (protos w !! (obj_class o, key)); by intros [= ->].
Qed.

Lemma lookup_method_state receiver method w :
  (lookup_method receiver method w).2 = w.
Proof.
  unfold lookup_method. destruct receiver; try done.
  destruct (heap w !! l) as [o|]; [|done].
  destruct (obj_fields o !! method); [done|].
  by destruct (protos w !! (obj_class o, method)).
Qed.

(** The method of the class is reached on an object that has no own
    property, and whose prototype has no accessor, under the name. *)
Lemma lookup_method_reached l o method w :
  heap w !! l = Some o ->
  obj_fields o !! method = None ->
  protos w !! (obj_class o, method) = None ->
  lookup_method (VObj l) method w = (Ok (obj_class o), w).
Proof. intros Hl Hf Hp. unfold lookup_method. by rewrite Hl, Hf, Hp. Qed.

Lemma lookup_method_Ok_inv receiver method w c :
  lookup_method receiver method w = (Ok c, w) ->
  exists l o,
    receiver = VObj l /\ heap w !! l = Some o /\ obj_class o = c
    /\ obj_fields o !! method = None /\ protos w !! (c, method) = None.
Proof.
  unfold lookup_method. destruct receiver; try done.
  destruct (heap w !! l) as [o|] eqn:Hl; [|done].
  destruct (obj_fields o !! method) eqn:Hf; [done|].
  destruct (protos w !! (obj_class o, method)) eqn:Hp; [done|].
  intros [= <-]. by exists l, o.
Qed.

Lemma lookup_method_set_out receiver method lines w c :
  lookup_method receiver method w = (Ok c, w) ->
  lookup_method receiver method (set_out lines w) = (Ok c, set_out lines w).
Proof.
  intros H. apply lookup_method_Ok_inv in H as (l & o & -> & Hl & <- & Hf & Hp).
  by apply lookup_method_reached.
Qed.

(** A call of [log] that reaches the method of one of the three logger
    classes writes one line, the message behind the prefix of that class. *)
Lemma ILogger_log_line logger c p message w :
  lookup_method logger "log" w = (Ok c, w) ->
  logger_prefix c = Some p ->
  ILogger_log logger message w =
    (Ok VUndefined, set_out (out w ++ [p ++ message]) w).
Proof.
  intros Hc Hp. unfold logger_prefix in Hp. unfold ILogger_log.
  repeat case_decide; try done; injection Hp as <-; subst c;
    by erewrite invoke_Ok; [|exact Hc|reflexivity].
Qed.

(** X9. When the [log] method of one of the three logger classes is reached
    on the value held in [loggerService], each of [login], [updateUserName]
    and [logOut] writes exactly one line, after the lines already written:
    the message behind the prefix of that class. Nothing else changes. *)
Theorem UserService_methods_log_one_line
  (this logger : JsValue) (c : Token) (p : string) (w : World)
  (username password newUsername : string) :
  get_prop this "loggerService" w = (Ok logger, w) ->
  lookup_method logger "log" w = (Ok c, w) ->
  logger_prefix c = Some p ->
  UserService_login username password this w =
    (Ok VUndefined,
     set_out (out w ++ [p ++ "logging in user with " ++ username ++ " and " ++ password]) w)
  /\ UserService_updateUserName newUsername this w =
       (Ok VUndefined, set_out (out w ++ [p ++ "updating username " ++ newUsername]) w)
  /\ UserService_logOut this w =
       (Ok VUndefined, set_out (out w ++ [p ++ "logging out user"]) w).
Proof.
  intros Hg Hl Hp.
  unfold UserService_login, UserService_updateUserName, UserService_logOut.
  rewrite !(bind_Ok _ _ _ _ _ Hg).
  by rewrite !(ILogger_log_line _ _ _ _ _ Hl Hp).
Qed.

(** X10. When [login], [updateUserName] and [logOut] are reached on the
    value [Main] reads as [userService], and [log] of one of the three logger
    classes is reached on the logger that service holds, [Main.init] writes
    exactly three lines, after the lines already written and in the order
    login, update, logout, each behind the prefix of that logger class.
    Nothing else changes. *)
Theorem Main_init_appends_three_lines
  (this userService logger : JsValue) (c : Token) (p : string) (w : World) :
  get_prop this "userService" w = (Ok userService, w) ->
  lookup_method userService "login" w = (Ok UserService, w) ->
  lookup_method userService "updateUserName" w = (Ok UserService, w) ->
  lookup_method userService "logOut" w = (Ok UserService, w) ->
  get_prop userService "loggerService" w = (Ok logger, w) ->
  lookup_method logger "log" w = (Ok c, w) ->
  logger_prefix c = Some p ->
  Main_init this w =
    (Ok VUndefined,
     set_out (out w ++ [p ++ "logging in user with john and john@123";
                        p ++ "updating username bob";
                        p ++ "logging out user"]) w).
Proof.
  intros Hus Hm1 Hm2 Hm3 Hg Hl Hp.
  assert (forall lines,
            get_prop this "userService" (set_out lines w) =
              (Ok userService, set_out lines w)) as Hus'
    by (intros; by apply get_prop_set_out).
  assert (forall lines,
            get_prop userService "loggerService" (set_out lines w) =
              (Ok logger, set_out lines w)) as Hg'
    by (intros; by apply get_prop_set_out).
  assert (forall lines,
            lookup_method logger "log" (set_out lines w) =
              (Ok c, set_out lines w)) as Hl'
    by (intros; by apply lookup_method_set_out).
  unfold Main_init.
  rewrite (bind_Ok _ _ _ _ _ Hus).
  erewrite bind_Ok; cycle 1.
  { erewrite invoke_Ok; [|exact Hm1|reflexivity].
    apply (UserService_methods_log_one_line _ _ _ _ _ _ _ "" Hg Hl Hp). }
  rewrite (bind_Ok _ _ _ _ _ (Hus' _)).
  erewrite bind_Ok; cycle 1.
  { erewrite invoke_Ok;
      [|by apply lookup_method_set_out; exact Hm2|reflexivity].
    apply (UserService_methods_log_one_line _ _ _ _ _ "" "" _ (Hg' _) (Hl' _) Hp). }
  cbn [out set_out].
  change (set_out ?a (set_out ?b w)) with (set_out a w).
  rewrite (bind_Ok _ _ _ _ _ (Hus' _)).
  erewrite bind_Ok; cycle 1.
  { erewrite invoke_Ok;
      [|by apply lookup_method_set_out; exact Hm3|reflexivity].
    apply (UserService_methods_log_one_line _ _ _ _ _ "" "" "" (Hg' _) (Hl' _) Hp). }
  cbn [out set_out ret].
  change (set_out ?a (set_out ?b w)) with (set_out a w).
  by rewrite <- !app_assoc.
Qed.

(** X11. [getLogger] only reads: for every configuration value, receiver and
    state, whether it returns a logger or throws, the state afterwards is the
    state before. *)
Theorem getLogger_changes_nothing (config : string) (this : JsValue) (w : World) :
  (LoggerFactory_getLogger config this w).2 = w.
Proof.
  unfold LoggerFactory_getLogger. unfold bind at 1.
  pose proof (get_prop_state this "configService" w) as H1.
  destruct (get_prop this "configService" w) as [[cs|e] w1]; cbn in H1; subst w1;
    [|done].
  unfold bind at 1. unfold invoke. unfold bind at 1.
  pose proof (lookup_method_state cs "getEnvConfig" w) as H2.
  destruct (lookup_method cs "getEnvConfig" w) as [[c|e] w2]; cbn in H2; subst w2;
    [|done].
  destruct (list_find _ _) as [[i [k body]]|] eqn:Hf; [|done].
  apply list_find_Some in Hf as (Hi & _ & _).
  destruct i as [|i]; [|by destruct i].
  injection Hi as <- <-. cbn.
  repeat match goal with |- context [if ?b then _ else _] => destruct b end;
    try apply get_prop_state; done.
Qed.

(** The two outcomes of the constructor of [UserService]. *)
Lemma UserService_constructor_cases
  (config : string) (this : nat) (o : Obj) (factory : JsValue) (w : World) :
  heap w !! this = Some o ->
  protos w !! (obj_class o, "loggerService") = None ->
  get_prop (VObj this) "loggerFactory" w = (Ok factory, w) ->
  lookup_method factory "getLogger" w = (Ok LoggerFactory, w) ->
  match LoggerFactory_getLogger config factory w with
  | (Ok logger, _) =>
      let w' := set_heap
                  (<[this := {| obj_class := obj_class o;
                                obj_fields := <["loggerService" := logger]> (obj_fields o) |}]>
                     (heap w)) w in
      UserService_constructor config this w = (Ok VUndefined, w')
      /\ get_prop (VObj this) "loggerService" w' = (Ok logger, w')
  | (Throw e, _) => UserService_constructor config this w = (Throw e, w)
  end.
Proof.
  intros Hl Hp Hf Hc.
  pose proof (getLogger_changes_nothing config factory w) as Hst.
  unfold UserService_constructor. rewrite (bind_Ok _ _ _ _ _ Hf).
  unfold bind. erewrite invoke_Ok; [|exact Hc|reflexivity]. cbn [snd].
  destruct (LoggerFactory_getLogger config factory w) as [[logger|e] w1];
    cbn in Hst; subst w1; [|done].
  split.
  - unfold set_prop. rewrite Hl, Hp. by destruct (obj_fields o !! "loggerService").
  - unfold get_prop. cbn [heap set_heap].
    rewrite list_lookup_insert_eq by (by eapply lookup_lt_Some).
    cbn [obj_fields]. by rewrite lookup_insert_eq.
Qed.

(** X12. When [getLogger] is reached on the value [loggerFactory] reads as,
    the constructor of [UserService] asks that factory for a logger once and
    stores it as the own property [loggerService], which then reads as that
    logger; the constructor itself returns nothing. If the factory throws,
    the constructor throws the same error and the object is left as
    allocated. *)
Theorem UserService_constructor_stores_logger
  (config : string) (this : nat) (o : Obj) (factory : JsValue) (w : World) :
  heap w !! this = Some o ->
  protos w !! (obj_class o, "loggerService") = None ->
  get_prop (VObj this) "loggerFactory" w = (Ok factory, w) ->
  lookup_method factory "getLogger" w = (Ok LoggerFactory, w) ->
  match LoggerFactory_getLogger config factory w with
  | (Ok logger, _) =>
      let w' := set_heap
                  (<[this := {| obj_class := obj_class o;
                                obj_fields := <["loggerService" := logger]> (obj_fields o) |}]>
                     (heap w)) w in
      UserService_constructor config this w = (Ok VUndefined, w')
      /\ get_prop (VObj this) "loggerService" w' = (Ok logger, w')
  | (Throw e, _) => UserService_constructor config this w = (Throw e, w)
  end.
Proof. apply UserService_constructor_cases. Qed.

(** Under an unrecognized configuration value the module stops in the
    constructor of [UserService], in the state reached by the declarations
    before it and the allocation of that object. *)
Lemma program_unrecognized (tokenText : Token -> string) (config : string) :
  config <> "console" -> config <> "file" -> config <> "cloud" ->
  program tokenText config initial_world =
    (Throw (Error "unknown logger service instance"),
     (allocate UserService
        (Inject tokenText LoggerFactory UserService "loggerFactory"
           (declarations_through_LoggerFactory tokenText initial_world).2).2).2).
Proof.
  intros H1 H2 H3. apply String.eqb_neq in H1, H2, H3.
  unfold program.
  rewrite (bind_Ok _ _ _ _ _
             (eq_refl : console_clear initial_world = (Ok VUndefined, initial_world))).
  rewrite (bind_Ok _ _ _ _ _
             (eq_refl : modify (set_container new_Container) initial_world =
                        (Ok VUndefined, initial_world))).
  apply bind_Throw. unfold declarations.
  destruct (declarations_through_LoggerFactory tokenText initial_world)
    as [r5 w5] eqn:H5.
  assert (r5 = Ok VUndefined) as -> by (vm_compute in H5; congruence).
  rewrite (bind_Ok _ _ _ _ _ H5). cbn [snd].
  destruct (Inject tokenText LoggerFactory UserService "loggerFactory" w5)
    as [r6 w6] eqn:H6.
  assert (w5 = (declarations_through_LoggerFactory tokenText initial_world).2)
    as Hw5 by (by rewrite H5).
  assert (r6 = Ok VUndefined) as ->.
  { replace r6 with
      (Inject tokenText LoggerFactory UserService "loggerFactory" w5).1
      by (by rewrite H6).
    rewrite Hw5. by vm_compute. }
  rewrite (bind_Ok _ _ _ _ _ H6). cbn [snd].
  apply bind_Throw. unfold Injectable. apply bind_Throw.
  rewrite new_unfold. cbn [cls_constructor class_UserService cls_id].
  assert (w6 = (Inject tokenText LoggerFactory UserService "loggerFactory"
                  (declarations_through_LoggerFactory tokenText initial_world).2).2)
    as Hw6 by (by rewrite <- Hw5, H6).
  set (w7 := (allocate UserService w6).2).
  assert (heap w7 !! length (heap w6) =
            Some {| obj_class := UserService; obj_fields := ∅ |}) as Hl
    by (by apply list_lookup_middle).
  assert (get_prop (VObj (length (heap w6))) "loggerFactory" w7 = (Ok (VObj 4), w7))
    as Hf.
  { unfold get_prop. rewrite Hl. cbn [obj_fields obj_class].
    subst w7. rewrite Hw6. by vm_compute. }
  assert (lookup_method (VObj 4) "getLogger" w7 = (Ok LoggerFactory, w7)) as Hc.
  { subst w7. rewrite Hw6. by vm_compute. }
  assert (protos w7 !! (UserService, "loggerService") = None) as Hp.
  { subst w7. rewrite Hw6. by vm_compute. }
  assert (LoggerFactory_getLogger config (VObj 4) w7 =
            (Throw (Error "unknown logger service instance"), w7)) as Hg.
  { rewrite (getLogger_switch config (VObj 4) (VObj 0) w7).
    - by rewrite H1, H2, H3.
    - subst w7. rewrite Hw6. by vm_compute.
    - subst w7. rewrite Hw6. by vm_compute. }
  pose proof (UserService_constructor_cases config _ _ _ _ Hl Hp Hf Hc) as Hctor.
  rewrite Hg in Hctor. by rewrite Hctor.
Qed.

(** X13. What the module does under each configuration value, run from a
    fresh state. For ['console'], ['file'] and ['cloud'] it completes and
    writes the three lines behind ['[console]: '], ['[file]: '] or
    ['[cloud]: ']. For every other value it stops with the error
    ['unknown logger service instance'] while [UserService] is being
    declared: nothing is written, the five classes declared before are
    registered, [UserService] and [Main] are not. In both cases the registry
    holds objects only. *)
Theorem program_outcome_by_config (tokenText : Token -> string) (config : string) :
  let r := program tokenText config initial_world in
  (config ∈ ["console"; "file"; "cloud"] ->
     r.1 = Ok VUndefined
     /\ out r.2 =
          ["[" ++ config ++ "]: logging in user with john and john@123";
           "[" ++ config ++ "]: updating username bob";
           "[" ++ config ++ "]: logging out user"])
  /\ (config ∉ ["console"; "file"; "cloud"] ->
        r.1 = Throw (Error "unknown logger service instance")
        /\ out r.2 = []
        /\ registration_order (calls r.2) =
             [ConfigService; ConsoleLoggerService; FileLoggerService;
              CloudLoggerService; LoggerFactory]
        /\ services (container r.2) !! UserService = None
        /\ services (container r.2) !! Main = None)
  /\ holds_objects (container r.2).
Proof.
  intros r.
  destruct (decide (config ∈ ["console"; "file"; "cloud"])) as [Hin|Hout].
  - split; [|split; [done|]].
    + intros _. subst r.
      repeat (apply elem_of_cons in Hin as [->|Hin]); [by vm_compute..|].
      by apply elem_of_nil in Hin.
    + subst r. apply holds_objects_decide.
      repeat (apply elem_of_cons in Hin as [->|Hin]); [by vm_compute..|].
      by apply elem_of_nil in Hin.
  - assert (config <> "console" /\ config <> "file" /\ config <> "cloud")
      as (H1 & H2 & H3).
    { repeat split; intros ->; apply Hout; set_solver. }
    subst r. rewrite (program_unrecognized tokenText config H1 H2 H3).
    split; [done|]. split.
    + intros _. by vm_compute.
    + apply holds_objects_decide. by vm_compute.
Qed.


(** ** The version with constructor injection *)

Lemma Basic_undecorated_lookup (w : World) (key : string) :
  Basic.undecorated w ->
  protos w !! (Basic.UserService, key) = None
  /\ protos w !! (Basic.Main, key) = None.
Proof.
  intros H. split.
  - destruct (protos w !! (Basic.UserService, key)) eqn:E; [|done].
    by destruct (H _ _ E) as [? _].
  - destruct (protos w !! (Basic.Main, key)) eqn:E; [|done].
    by destruct (H _ _ E) as [_ ?].
Qed.

(** [new C(value)] for a constructor whose body is [this.key = value]. *)
Lemma new_with_field (C : Token) (key : string) (value : JsValue) (w : World) :
  protos w !! (C, key) = None ->
  bind (allocate C)
    (fun this => bind (set_prop this key value) (fun _ => ret (VObj this))) w =
    (Ok (VObj (length (heap w))),
     record_call (CNew C)
       (set_heap
          (heap w ++ [{| obj_class := C; obj_fields := {[key := value]} |}]) w)).
Proof.
  intros Hp. unfold bind, allocate, set_prop, ret.
  cbn [heap protos record_call set_heap obj_class obj_fields].
  rewrite list_lookup_middle by done. cbn [obj_class obj_fields].
  rewrite lookup_empty, Hp.
  rewrite <- (Nat.add_0_r (length (heap w))) at 2.
  rewrite insert_app_r. cbn. by rewrite insert_empty.
Qed.

Lemma Basic_UserService_methods
  (this logger : JsValue) c p w username password newUsername :
  get_prop this "loggerService" w = (Ok logger, w) ->
  lookup_method logger "log" w = (Ok c, w) ->
  logger_prefix c = Some p ->
  Basic.UserService_login username password this w =
    (Ok VUndefined,
     set_out (out w ++ [p ++ "Logggin in user with " ++ username ++ " and " ++ password]) w)
  /\ Basic.UserService_updateUsername newUsername this w =
       (Ok VUndefined, set_out (out w ++ [p ++ "updating Username " ++ newUsername]) w)
  /\ Basic.UserService_logout this w =
       (Ok VUndefined, set_out (out w ++ [p ++ "logging out user"]) w).
Proof.
  intros Hg Hl Hp.
  unfold Basic.UserService_login, Basic.UserService_updateUsername,
    Basic.UserService_logout.
  rewrite !(bind_Ok _ _ _ _ _ Hg).
  by rewrite !(ILogger_log_line _ _ _ _ _ Hl Hp).
Qed.

Lemma Basic_Main_init_lines (this userService logger : JsValue) c p w :
  get_prop this "userService" w = (Ok userService, w) ->
  lookup_method userService "login" w = (Ok Basic.UserService, w) ->
  lookup_method userService "updateUsername" w = (Ok Basic.UserService, w) ->
  lookup_method userService "logout" w = (Ok Basic.UserService, w) ->
  get_prop userService "loggerService" w = (Ok logger, w) ->
  lookup_method logger "log" w = (Ok c, w) ->
  logger_prefix c = Some p ->
  Basic.Main_init this w =
    (Ok VUndefined,
     set_out (out w ++ [p ++ "Logggin in user with John and Jogn@123";
                        p ++ "updating Username bob";
                        p ++ "logging out user"]) w).
Proof.
  intros Hus Hm1 Hm2 Hm3 Hg Hl Hp.
  assert (forall lines,
            get_prop this "userService" (set_out lines w) =
              (Ok userService, set_out lines w)) as Hus'
    by (intros; by apply get_prop_set_out).
  assert (forall lines,
            get_prop userService "loggerService" (set_out lines w) =
              (Ok logger, set_out lines w)) as Hg'
    by (intros; by apply get_prop_set_out).
  assert (forall lines,
            lookup_method logger "log" (set_out lines w) =
              (Ok c, set_out lines w)) as Hl'
    by (intros; by apply lookup_method_set_out).
  unfold Basic.Main_init.
  rewrite (bind_Ok _ _ _ _ _ Hus).
  erewrite bind_Ok; cycle 1.
  { erewrite invoke_Ok; [|exact Hm1|reflexivity].
    apply (Basic_UserService_methods _ _ _ _ _ _ _ "" Hg Hl Hp). }
  rewrite (bind_Ok _ _ _ _ _ (Hus' _)).
  erewrite bind_Ok; cycle 1.
  { erewrite invoke_Ok;
      [|by apply lookup_method_set_out; exact Hm2|reflexivity].
    apply (Basic_UserService_methods _ _ _ _ _ "" "" _ (Hg' _) (Hl' _) Hp). }
  cbn [out set_out].
  change (set_out ?a (set_out ?b w)) with (set_out a w).
  rewrite (bind_Ok _ _ _ _ _ (Hus' _)).
  erewrite bind_Ok; cycle 1.
  { erewrite invoke_Ok;
      [|by apply lookup_method_set_out; exact Hm3|reflexivity].
    apply (Basic_UserService_methods _ _ _ _ _ "" "" "" (Hg' _) (Hl' _) Hp). }
  cbn [out set_out ret].
  change (set_out ?a (set_out ?b w)) with (set_out a w).
  by rewrite <- !app_assoc.
Qed.

(** X14. The two classes of the version with constructor injection log
    through the logger handed to the constructor. In a state where no
    accessor was defined on their prototypes, for a value on which [log] of
    one of the three logger classes is reached: constructing a [UserService]
    with it, a [Main] with that service, and running [init] on that [Main]
    writes the three lines of this version behind the prefix of that logger
    class, after the lines already written; the two constructions allocate
    two objects, and the container is left alone. *)
Theorem Basic_init_logs_through_constructor_argument
  (logger : JsValue) (c : Token) (p : string) (w : World) :
  lookup_method logger "log" w = (Ok c, w) ->
  logger_prefix c = Some p ->
  Basic.undecorated w ->
  let r := bind (Basic.new_UserService logger)
             (fun userService => bind (Basic.new_Main userService) Basic.Main_init) w in
  r.1 = Ok VUndefined
  /\ out r.2 =
       app (out w) [p ++ "Logggin in user with John and Jogn@123";
                    p ++ "updating Username bob";
                    p ++ "logging out user"]
  /\ length (heap r.2) = length (heap w) + 2
  /\ container r.2 = container w.
Proof.
  intros Hlog Hp Hun r. subst r.
  pose proof (fun key => proj1 (Basic_undecorated_lookup w key Hun)) as HpU.
  pose proof (fun key => proj2 (Basic_undecorated_lookup w key Hun)) as HpM.
  apply lookup_method_Ok_inv in Hlog as (lg & o & -> & Hl & <- & Hf & Hpl).
  set (oU := {| obj_class := Basic.UserService;
                obj_fields := {["loggerService" := VObj lg]} |}).
  set (w1 := record_call (CNew Basic.UserService)
               (set_heap (heap w ++ [oU]) w)).
  set (oM := {| obj_class := Basic.Main;
                obj_fields := {["userService" := VObj (length (heap w))]} |}).
  set (w2 := record_call (CNew Basic.Main) (set_heap (heap w1 ++ [oM]) w1)).
  assert (Basic.new_UserService (VObj lg) w = (Ok (VObj (length (heap w))), w1))
    as H1 by (by apply new_with_field).
  assert (Basic.new_Main (VObj (length (heap w))) w1 =
            (Ok (VObj (length (heap w1))), w2))
    as H2 by (apply new_with_field; apply HpM).
  assert (length (heap w1) = S (length (heap w))) as Hlen
    by (cbn; rewrite length_app; cbn; lia).
  assert (heap w2 = (heap w ++ [oU; oM])%list) as Hh2
    by (cbn; by rewrite <- app_assoc).
  assert (heap w2 !! length (heap w1) = Some oM) as HM.
  { rewrite Hh2, Hlen, lookup_app_r by lia.
    by replace (S (length (heap w)) - length (heap w)) with 1 by lia. }
  assert (heap w2 !! length (heap w) = Some oU) as HU
    by (rewrite Hh2; by apply list_lookup_middle).
  assert (heap w2 !! lg = Some o) as Hlg
    by (rewrite Hh2; by apply lookup_app_l_Some).
  assert (forall method, method <> "loggerService" ->
            lookup_method (VObj (length (heap w))) method w2 =
              (Ok Basic.UserService, w2)) as Hmeth.
  { intros method Hne.
    apply (lookup_method_reached _ oU _ _ HU); [|apply HpU].
    cbn [obj_fields oU]. by apply lookup_singleton_ne. }
  rewrite (bind_Ok _ _ _ _ _ H1), (bind_Ok _ _ _ _ _ H2).
  rewrite (Basic_Main_init_lines _ (VObj (length (heap w))) (VObj lg)
             (obj_class o) p w2); try done.
  - cbn [fst snd out set_out heap]. repeat split; try done.
    rewrite Hh2, length_app. cbn. lia.
  - unfold get_prop. rewrite HM. cbn [obj_fields oM].
    by rewrite lookup_singleton_eq.
  - by apply Hmeth.
  - by apply Hmeth.
  - by apply Hmeth.
  - unfold get_prop. rewrite HU. cbn [obj_fields oU].
    by rewrite lookup_singleton_eq.
  - by apply lookup_method_reached.
Qed.

(** ** Concrete instances of the further properties *)

(** X1, witness. *)
Lemma register_leaves_other_identities_witness :
  let c := (register ConsoleLoggerService (VObj 1) new_Container).2 in
  ConsoleLoggerService <> ConfigService
  /\ (resolve sample_tokenText ConsoleLoggerService
        (register ConfigService VNull c).2).1 = Ok (VObj 1).
Proof.
  intros c.
  assert (ConsoleLoggerService <> ConfigService) as Hne by discriminate.
  split; [exact Hne|].
  rewrite (register_leaves_other_identities sample_tokenText
             ConfigService ConsoleLoggerService VNull c Hne).
  reflexivity.
Defined.

(** X2, witness. *)
Lemma register_order_unobservable_witness :
  ConfigService <> ConsoleLoggerService
  /\ (resolve sample_tokenText ConfigService
        (register ConfigService (VObj 0)
           (register ConsoleLoggerService (VObj 1) new_Container).2).2).1 =
     (resolve sample_tokenText ConfigService
        (register ConsoleLoggerService (VObj 1)
           (register ConfigService (VObj 0) new_Container).2).2).1.
Proof.
  assert (ConfigService <> ConsoleLoggerService) as Hne by discriminate.
  split; [exact Hne|].
  exact (proj1 (register_order_unobservable sample_tokenText
                  ConfigService ConsoleLoggerService (VObj 0) (VObj 1)
                  new_Container ConfigService Hne)).
Defined.

(** X3, witness: the registry the module ends with. *)
Lemma resolve_among_objects_fails_iff_absent_witness :
  let c := container (index_ts sample_tokenText initial_world).2 in
  holds_objects c
  /\ resolve sample_tokenText Main c = (Ok (VObj 6), c).
Proof.
  intros c.
  assert (holds_objects c) as Hobj
    by (apply holds_objects_decide; vm_compute; reflexivity).
  assert (services c !! Main = Some (VObj 6)) as Hlk
    by (vm_compute; reflexivity).
  split; [exact Hobj|].
  exact (proj2 (resolve_among_objects_fails_iff_absent sample_tokenText Main c Hobj)
           (VObj 6) Hlk).
Defined.

(** X4, witness: the first declaration of the module. *)
Lemma Injectable_keeps_objects_witness :
  holds_objects (container (new_ class_ConfigService initial_world).2)
  /\ holds_objects (container (Injectable class_ConfigService initial_world).2).
Proof.
  assert (holds_objects (container (new_ class_ConfigService initial_world).2))
    as H by (apply holds_objects_decide; vm_compute; reflexivity).
  split; [exact H|].
  exact (Injectable_keeps_objects class_ConfigService initial_world H).
Defined.


(** X7, witness: [configService] of [LoggerFactory] rebound to the console
    logger, then to the file logger, and read on the factory. *)
Lemma Inject_again_rebinds_witness :
  let w := (declarations_through_LoggerFactory sample_tokenText initial_world).2 in
  let w1 := (Inject sample_tokenText ConsoleLoggerService LoggerFactory "configService" w).2 in
  let w2 := (Inject sample_tokenText FileLoggerService LoggerFactory "configService" w1).2 in
  Inject sample_tokenText ConsoleLoggerService LoggerFactory "configService" w =
    (Ok VUndefined, w1)
  /\ Inject sample_tokenText FileLoggerService LoggerFactory "configService" w1 =
       (Ok VUndefined, w2)
  /\ get_prop (VObj 4) "configService" w2 = (Ok (VObj 2), w2).
Proof.
  intros w w1 w2.
  assert (Inject sample_tokenText ConsoleLoggerService LoggerFactory "configService" w =
            (Ok VUndefined, w1)) as H1 by (vm_compute; reflexivity).
  assert (Inject sample_tokenText FileLoggerService LoggerFactory "configService" w1 =
            (Ok VUndefined, w2)) as H2 by (vm_compute; reflexivity).
  split; [exact H1|]. split; [exact H2|].
  refine (proj2 (Inject_again_rebinds sample_tokenText ConsoleLoggerService
                   FileLoggerService LoggerFactory "configService" w w1 w2
                   VUndefined VUndefined H1 H2)
            w2 4 {| obj_class := LoggerFactory; obj_fields := ∅ |} _ _ _ _);
    vm_compute; reflexivity.
Defined.

(** X8, witness: assigning to [configService] on the factory of the
    module. *)
Lemma injected_property_is_read_only_witness :
  let w := (Injectable class_ConfigService initial_world).2 in
  let w1 := (Inject sample_tokenText ConfigService LoggerFactory "configService" w).2 in
  let w2 := (index_ts sample_tokenText initial_world).2 in
  Inject sample_tokenText ConfigService LoggerFactory "configService" w =
    (Ok VUndefined, w1)
  /\ exists message,
       set_prop 4 "configService" VNull w2 = (Throw (TypeError message), w2).
Proof.
  intros w w1 w2.
  assert (Inject sample_tokenText ConfigService LoggerFactory "configService" w =
            (Ok VUndefined, w1)) as H1 by (vm_compute; reflexivity).
  split; [exact H1|].
  refine (injected_property_is_read_only sample_tokenText ConfigService
            LoggerFactory "configService" w w1 w2 VUndefined 4
            {| obj_class := LoggerFactory; obj_fields := ∅ |} VNull H1 _ _ _ _);
    vm_compute; reflexivity.
Defined.


(** X9, witness: the user service of the module. *)
Lemma UserService_methods_log_one_line_witness :
  let w := (index_ts sample_tokenText initial_world).2 in
  get_prop (VObj 5) "loggerService" w = (Ok (VObj 1), w)
  /\ lookup_method (VObj 1) "log" w = (Ok ConsoleLoggerService, w)
  /\ logger_prefix ConsoleLoggerService = Some "[console]: "
  /\ UserService_login "ann" "pw" (VObj 5) w =
       (Ok VUndefined,
        set_out (out w ++ ["[console]: logging in user with ann and pw"]) w).
Proof.
  intros w.
  assert (get_prop (VObj 5) "loggerService" w = (Ok (VObj 1), w)) as Hg
    by (vm_compute; reflexivity).
  assert (lookup_method (VObj 1) "log" w = (Ok ConsoleLoggerService, w)) as Hl
    by (vm_compute; reflexivity).
  split; [exact Hg|]. split; [exact Hl|]. split; [reflexivity|].
  exact (proj1 (UserService_methods_log_one_line (VObj 5) (VObj 1)
                  ConsoleLoggerService "[console]: " w "ann" "pw" "" Hg Hl eq_refl)).
Defined.

(** X10, witness: [init] run a second time on the [Main] of the module. *)
Lemma Main_init_appends_three_lines_witness :
  let w := (index_ts sample_tokenText initial_world).2 in
  get_prop (VObj 6) "userService" w = (Ok (VObj 5), w)
  /\ lookup_method (VObj 5) "login" w = (Ok UserService, w)
  /\ lookup_method (VObj 5) "updateUserName" w = (Ok UserService, w)
  /\ lookup_method (VObj 5) "logOut" w = (Ok UserService, w)
  /\ get_prop (VObj 5) "loggerService" w = (Ok (VObj 1), w)
  /\ lookup_method (VObj 1) "log" w = (Ok ConsoleLoggerService, w)
  /\ out (Main_init (VObj 6) w).2 =
       ["[console]: logging in user with john and john@123";
        "[console]: updating username bob";
        "[console]: logging out user";
        "[console]: logging in user with john and john@123";
        "[console]: updating username bob";
        "[console]: logging out user"].
Proof.
  intros w.
  assert (get_prop (VObj 6) "userService" w = (Ok (VObj 5), w)) as Hus
    by (vm_compute; reflexivity).
  assert (lookup_method (VObj 5) "login" w = (Ok UserService, w)) as Hm1
    by (vm_compute; reflexivity).
  assert (lookup_method (VObj 5) "updateUserName" w = (Ok UserService, w)) as Hm2
    by (vm_compute; reflexivity).
  assert (lookup_method (VObj 5) "logOut" w = (Ok UserService, w)) as Hm3
    by (vm_compute; reflexivity).
  assert (get_prop (VObj 5) "loggerService" w = (Ok (VObj 1), w)) as Hg
    by (vm_compute; reflexivity).
  assert (lookup_method (VObj 1) "log" w = (Ok ConsoleLoggerService, w)) as Hl
    by (vm_compute; reflexivity).
  repeat (split; [eassumption|]).
  rewrite (Main_init_appends_three_lines (VObj 6) (VObj 5) (VObj 1)
             ConsoleLoggerService "[console]: " w Hus Hm1 Hm2 Hm3 Hg Hl eq_refl).
  reflexivity.
Defined.

(** X12, witness: the constructor of [UserService] run as in the module, under
    configuration ['file']. *)
Lemma UserService_constructor_stores_logger_witness :
  let w := (allocate UserService
              (Inject sample_tokenText LoggerFactory UserService "loggerFactory"
                 (declarations_through_LoggerFactory sample_tokenText
                    initial_world).2).2).2 in
  heap w !! 5 = Some {| obj_class := UserService; obj_fields := ∅ |}
  /\ get_prop (VObj 5) "loggerFactory" w = (Ok (VObj 4), w)
  /\ lookup_method (VObj 4) "getLogger" w = (Ok LoggerFactory, w)
  /\ LoggerFactory_getLogger "file" (VObj 4) w = (Ok (VObj 2), w)
  /\ (UserService_constructor "file" 5 w).1 = Ok VUndefined
  /\ get_prop (VObj 5) "loggerService" (UserService_constructor "file" 5 w).2 =
       (Ok (VObj 2), (UserService_constructor "file" 5 w).2).
Proof.
  intros w.
  assert (heap w !! 5 = Some {| obj_class := UserService; obj_fields := ∅ |})
    as Hl by (vm_compute; reflexivity).
  assert (protos w !! (UserService, "loggerService") = None) as Hp
    by (vm_compute; reflexivity).
  assert (get_prop (VObj 5) "loggerFactory" w = (Ok (VObj 4), w)) as Hf
    by (vm_compute; reflexivity).
  assert (lookup_method (VObj 4) "getLogger" w = (Ok LoggerFactory, w)) as Hc
    by (vm_compute; reflexivity).
  assert (LoggerFactory_getLogger "file" (VObj 4) w = (Ok (VObj 2), w)) as Hg
    by (vm_compute; reflexivity).
  split; [exact Hl|]. split; [exact Hf|]. split; [exact Hc|]. split; [exact Hg|].
  pose proof (UserService_constructor_stores_logger "file" 5 _ (VObj 4) w
                Hl Hp Hf Hc) as H.
  rewrite Hg in H. destruct H as [H1 H2]. rewrite H1. split; [reflexivity|exact H2].
Defined.

(** X14, witness: a console logger handed to the constructor. *)
Lemma Basic_init_logs_through_constructor_argument_witness :
  let w := (new_ class_ConsoleLoggerService initial_world).2 in
  lookup_method (VObj 0) "log" w = (Ok ConsoleLoggerService, w)
  /\ logger_prefix ConsoleLoggerService = Some "[console]: "
  /\ Basic.undecorated w
  /\ out (bind (Basic.new_UserService (VObj 0))
            (fun userService => bind (Basic.new_Main userService) Basic.Main_init)
            w).2 =
       ["[console]: Logggin in user with John and Jogn@123";
        "[console]: updating Username bob";
        "[console]: logging out user"].
Proof.
  intros w.
  assert (lookup_method (VObj 0) "log" w = (Ok ConsoleLoggerService, w)) as Hl
    by reflexivity.
  assert (Basic.undecorated w) as Hun by apply map_Forall_empty.
  split; [exact Hl|]. split; [reflexivity|]. split; [exact Hun|].
  exact (proj1 (proj2 (Basic_init_logs_through_constructor_argument (VObj 0)
                         ConsoleLoggerService "[console]: " w Hl eq_refl Hun))).
Defined.

(** A method name taken by an accessor. Once [Inject] has put an accessor
    under [getEnvConfig] on the prototype of [ConfigService], the call
    [this.configService.getEnvConfig(...)] finds the injected instance, which
    is not callable: [getLogger] fails with a [TypeError] under every
    configuration value, without reaching the selection. *)
Example getLogger_with_shadowed_getEnvConfig (config : string) :
  let w := (Inject sample_tokenText ConsoleLoggerService ConfigService "getEnvConfig"
              (declarations_through_LoggerFactory sample_tokenText initial_world).2).2 in
  get_prop (VObj 4) "configService" w = (Ok (VObj 0), w)
  /\ exists message,
       LoggerFactory_getLogger config (VObj 4) w = (Throw (TypeError message), w).
Proof. split; [by vm_compute|]. eexists. by vm_compute. Qed.
